(** * Branch-based subscription pricing and brand-metrics aggregation

    A shallow embedding of [src/utils/branchBasedPricing.js] and of the
    aggregation step of [fetchBrandMetrics] in [src/pages/BrandOverview.jsx],
    with the code around them: the pricing effect of [BrandOverview], the
    branch list and selection of [src/contexts/BranchSelectionContext.jsx],
    and the pricing functions of the database in
    [supabase/migrations/003_branch_based_pricing.sql].

    Numbers.  The JavaScript sources compute on IEEE doubles.  Branch counts
    and monthly prices are integers and are modelled in [Z] (doubles are
    exact on them within the safe-integer range); quantities that involve a
    quotient are modelled in [Q], i.e. in exact arithmetic: the rounding of
    a double quotient is not modelled.  An unguarded JavaScript division can
    leave the finite numbers, so its result lives in [JS.number], which adds
    the two infinities and NaN. *)

From Stdlib Require Import ZArith QArith Qround Qabs Lia Lqa.
From Stdlib Require Import List String Bool.
From Stdlib Require Import Sorted Permutation.
From Stdlib Require DecimalString.
Import ListNotations.

Local Open Scope Z_scope.

(** ** JavaScript numbers that may be non-finite *)

Module JS.

Inductive number : Type :=
| Fin (q : Q)
| PosInf
| NegInf
| NaN.

(** [x / y] on finite operands: a zero divisor yields an infinity whose sign
    is the sign of the dividend, and NaN for [0 / 0]. *)
Definition div (x y : Q) : number :=
  if Qeq_bool y 0 then
    match (x ?= 0)%Q with
    | Gt => PosInf
    | Lt => NegInf
    | Eq => NaN
    end
  else Fin (x / y).

Definition isFinite (n : number) : bool :=
  match n with Fin _ => true | _ => false end.


(** A value read from a field of a JSON object: a finite number, [null], or
    [undefined] when the field is missing. *)
Inductive value : Type :=
| Num (q : Q)
| Null
| Undefined.

(** ToNumber: [null] converts to [0], [undefined] to NaN. *)
Definition toNumber (v : value) : number :=
  match v with
  | Num q => Fin q
  | Null => Fin 0
  | Undefined => NaN
  end.

(** [v || 0]: the falsy values [0], [null] and [undefined] give [0]. *)
Definition or0 (v : value) : Q :=
  match v with
  | Num q => if Qeq_bool q 0 then 0%Q else q
  | Null | Undefined => 0%Q
  end.

(** [v > 0]: a comparison with NaN is false. *)
Definition gt0 (v : value) : bool :=
  match toNumber v with
  | Fin q => negb (Qle_bool q 0)
  | _ => false
  end.

(** [x / y] on two such values: NaN as soon as one operand converts to NaN. *)
Definition quot (x y : value) : number :=
  match toNumber x, toNumber y with
  | Fin p, Fin q => div p q
  | _, _ => NaN
  end.

(** Rendering of an integer inside a template literal. *)
Definition toString (z : Z) : string :=
  DecimalString.NilZero.string_of_int (Z.to_int z).

End JS.

(** ** [PRICING_CONFIG] *)

Record PricingConfig : Type := {
  currency : string;
  basePriceMonthly : Z;
  additionalBranchPrice : Z;
  minBranches : Z;
  maxBranches : Z
}.

Definition PRICING_CONFIG : PricingConfig := {|
  currency := "SAR";
  basePriceMonthly := 299;
  additionalBranchPrice := 99;
  minBranches := 1;
  maxBranches := -1
|}.

(** ** [calculateMonthlyPrice] *)

Definition calculateMonthlyPrice (branchCount : Z) : Z :=
  if branchCount <? minBranches PRICING_CONFIG then
    basePriceMonthly PRICING_CONFIG
  else
    let additionalBranches := Z.max 0 (branchCount - 1) in
    basePriceMonthly PRICING_CONFIG
    + additionalBranches * additionalBranchPrice PRICING_CONFIG.

(** ** [calculateYearlyPrice]

    The second argument is optional in the source ([discountPercent = 17]);
    [None] is the call that omits it. *)

Definition calculateYearlyPrice (branchCount : Z) (discountPercent : option Q) : Q :=
  let discountPercent := match discountPercent with Some d => d | None => 17%Q end in
  let monthlyPrice := calculateMonthlyPrice branchCount in
  let yearlyPrice := monthlyPrice * 12 in
  let discountAmount := ((inject_Z yearlyPrice * discountPercent) / 100)%Q in
  (inject_Z yearlyPrice - discountAmount)%Q.

(** ** [getPricingBreakdown] *)

Record MonthlyBreakdown : Type := {
  monthly_total : Z;
  perBranch : JS.number;
  monthly_currency : string
}.

Record YearlyBreakdown : Type := {
  yearly_total : Q;
  savings : Q;
  savingsPercent : Z;
  perMonth : Q;
  yearly_currency : string
}.

Record PricingBreakdown : Type := {
  pb_branchCount : Z;
  basePrice : Z;
  additionalBranches : Z;
  additionalBranchCost : Z;
  monthly : MonthlyBreakdown;
  yearly : YearlyBreakdown
}.

Definition getPricingBreakdown (branchCount : Z) : PricingBreakdown :=
  let additionalBranches := Z.max 0 (branchCount - 1) in
  let monthlyTotal := calculateMonthlyPrice branchCount in
  let yearlyTotal := calculateYearlyPrice branchCount None in
  let yearlySavings := (inject_Z (monthlyTotal * 12) - yearlyTotal)%Q in
  {| pb_branchCount := branchCount;
     basePrice := basePriceMonthly PRICING_CONFIG;
     additionalBranches := additionalBranches;
     additionalBranchCost := additionalBranches * additionalBranchPrice PRICING_CONFIG;
     monthly := {| monthly_total := monthlyTotal;
                   perBranch := JS.div (inject_Z monthlyTotal) (inject_Z branchCount);
                   monthly_currency := currency PRICING_CONFIG |};
     yearly := {| yearly_total := yearlyTotal;
                  savings := yearlySavings;
                  savingsPercent := 17;
                  perMonth := (yearlyTotal / 12)%Q;
                  yearly_currency := currency PRICING_CONFIG |} |}.

(** ** [calculatePriceDifference]

    The quotient of [percentChange] is only evaluated under the guard
    [currentPrice > 0], so it is a quotient of finite numbers by a positive
    one and is taken in [Q]. *)

Record PriceDifference : Type := {
  currentPrice : Z;
  newPrice : Z;
  difference : Z;
  branchDifference : Z;
  isIncrease : bool;
  isDecrease : bool;
  percentChange : Q
}.

Definition calculatePriceDifference (currentBranches newBranches : Z) : PriceDifference :=
  let currentPrice := calculateMonthlyPrice currentBranches in
  let newPrice := calculateMonthlyPrice newBranches in
  let difference := newPrice - currentPrice in
  let branchDifference := newBranches - currentBranches in
  {| currentPrice := currentPrice;
     newPrice := newPrice;
     difference := difference;
     branchDifference := branchDifference;
     isIncrease := 0 <? difference;
     isDecrease := difference <? 0;
     percentChange :=
       if 0 <? currentPrice
       then ((inject_Z difference / inject_Z currentPrice) * 100)%Q
       else 0%Q |}.

(** ** [validateBranchCount] *)

Record BranchCountValidation : Type := {
  isValid : bool;
  v_branchCount : Z;
  v_minBranches : Z;
  v_maxBranches : Z;
  error : option string
}.

Definition validateBranchCount (branchCount : Z) : BranchCountValidation :=
  let isValid :=
    (minBranches PRICING_CONFIG <=? branchCount)
    && ((maxBranches PRICING_CONFIG =? -1)
        || (branchCount <=? maxBranches PRICING_CONFIG)) in
  {| isValid := isValid;
     v_branchCount := branchCount;
     v_minBranches := minBranches PRICING_CONFIG;
     v_maxBranches := maxBranches PRICING_CONFIG;
     error :=
       if negb isValid
       then Some ("Branch count must be at least "
                    ++ JS.toString (minBranches PRICING_CONFIG))%string
       else None |}.

(** ** [Array.prototype.sort] with a comparator

    The comparator returns a number whose sign orders its two arguments.
    ECMAScript (2019 and later) requires the sort to be stable, and for a
    consistent comparator the stably sorted arrangement of an array is
    unique (see [Array_sort_unique] below), so the insertion sort written
    here returns what every conforming engine returns. *)

Section ArraySort.

Context {A : Type}.
Variable compareFn : A -> A -> Q.

(** [x] stood before every element of [l] in the original array: it stays
    before the first element it does not have to follow. *)
Fixpoint Array_sort_insert (x : A) (l : list A) : list A :=
  match l with
  | [] => [x]
  | y :: l' =>
      if Qle_bool (compareFn x y) 0 then x :: y :: l'
      else y :: Array_sort_insert x l'
  end.

Fixpoint Array_sort (l : list A) : list A :=
  match l with
  | [] => []
  | x :: l' => Array_sort_insert x (Array_sort l')
  end.

End ArraySort.

(** ** [fetchBrandMetrics] (the aggregation in [BrandOverview.jsx]) *)

Record Branch : Type := {
  id : string;
  branch_name : string;
  branch_location : option string
}.

(** The statistics object resolved by [api.branches.getStatistics]. *)
Record Statistics : Type := {
  revenue : JS.value;
  orders : JS.value;
  growth : JS.value
}.

(** How the promise of one branch settles.  A fulfilled promise may carry
    [null] ([None]). *)
Inductive Settled : Type :=
| Fulfilled (metrics : option Statistics)
| Rejected (err : string).

(** [.catch(err => { console.error(...); return null; })] *)
Definition catch_null (p : Settled) : option Statistics :=
  match p with
  | Fulfilled metrics => metrics
  | Rejected _ => None
  end.

Record BranchRow : Type := {
  row_id : string;
  row_name : string;
  row_location : option string;
  row_revenue : Q;
  row_orders : Q;
  averageOrder : JS.number;
  row_growth : Q
}.

Record BrandMetrics : Type := {
  totalRevenue : Q;
  totalOrders : Q;
  averageOrderValue : Q;
  growthRate : Q
}.

(** The component state written by [fetchBrandMetrics]. *)
Record OverviewState : Type := {
  loading : bool;
  brandMetrics : BrandMetrics;
  branchPerformance : list BranchRow
}.

Definition initialState : OverviewState := {|
  loading := true;
  brandMetrics := {| totalRevenue := 0; totalOrders := 0;
                     averageOrderValue := 0; growthRate := 0 |};
  branchPerformance := []
|}.

(** The object pushed for a branch whose metrics are truthy. *)
Definition makeRow (branch : Branch) (metrics : Statistics) : BranchRow := {|
  row_id := id branch;
  row_name := branch_name branch;
  row_location := branch_location branch;
  row_revenue := JS.or0 (revenue metrics);
  row_orders := JS.or0 (orders metrics);
  averageOrder :=
    if JS.gt0 (orders metrics)
    then JS.quot (revenue metrics) (orders metrics)
    else JS.Fin 0;
  row_growth := JS.or0 (growth metrics)
|}.

(** The three accumulators of the [forEach] loop. *)
Record Accumulator : Type := {
  acc_totalRevenue : Q;
  acc_totalOrders : Q;
  branchPerformanceData : list BranchRow
}.

(** One iteration of [allBranchMetrics.forEach((metrics, index) => ...)];
    [branch] is [branches[index]]. *)
Definition forEach_body (acc : Accumulator) (entry : Branch * option Statistics)
  : Accumulator :=
  let (branch, metrics) := entry in
  match metrics with
  | Some metrics =>
      {| acc_totalRevenue := (acc_totalRevenue acc + JS.or0 (revenue metrics))%Q;
         acc_totalOrders := (acc_totalOrders acc + JS.or0 (orders metrics))%Q;
         branchPerformanceData :=
           branchPerformanceData acc ++ [makeRow branch metrics] |}
  | None => acc
  end.

(** [(a, b) => b.revenue - a.revenue] *)
Definition byRevenueDesc (a b : BranchRow) : Q :=
  (row_revenue b - row_revenue a)%Q.

(** [fetched] pairs every element of [branches] with the way the promise
    created for it settled; [Promise.all] keeps that order. *)
Definition fetchBrandMetrics (fetched : list (Branch * Settled))
    (st : OverviewState) : OverviewState :=
  let branches := map fst fetched in
  let allBranchMetrics := map (fun e => catch_null (snd e)) fetched in
  let acc :=
    fold_left forEach_body (combine branches allBranchMetrics)
      {| acc_totalRevenue := 0; acc_totalOrders := 0;
         branchPerformanceData := [] |} in
  let totalRevenue := acc_totalRevenue acc in
  let totalOrders := acc_totalOrders acc in
  let sorted := Array_sort byRevenueDesc (branchPerformanceData acc) in
  {| loading := false;
     brandMetrics :=
       {| totalRevenue := totalRevenue;
          totalOrders := totalOrders;
          averageOrderValue :=
            if negb (Qle_bool totalOrders 0)
            then (totalRevenue / totalOrders)%Q else 0%Q;
          growthRate :=
            if (0 <? Z.of_nat (List.length sorted))
            then (fold_left (fun sum b => sum + row_growth b) sorted 0
                  / inject_Z (Z.of_nat (List.length sorted)))%Q
            else 0%Q |};
     branchPerformance := sorted |}.

(** ** The pricing effect of [BrandOverview]

    [useEffect(() => { if (branchCount > 0) setPricingInfo(
    getPricingBreakdown(branchCount)) }, [branchCount])]: one run of the
    effect, from the pricing info held so far and the current count. *)

Definition pricingEffect (pricingInfo : option PricingBreakdown)
    (branchCount : Z) : option PricingBreakdown :=
  if 0 <? branchCount
  then Some (getPricingBreakdown branchCount)
  else pricingInfo.

(** The pricing info after the effect ran for each of the successive values
    of [branchCount]; the state starts as [null]. *)
Definition pricingInfoAfter (branchCounts : list Z) : option PricingBreakdown :=
  fold_left pricingEffect branchCounts None.

(** ** [BranchSelectionProvider] ([contexts/BranchSelectionContext.jsx])

    The provider that hands [branches] and [branchCount] to
    [BrandOverview]. *)

Module BranchSelection.

Record User : Type := { user_id : string }.

Record Brand : Type := {
  brand_id : string;
  main_branch_id : option string
}.

(** The state of the provider, with the [selectedBranchId] entry of
    [localStorage] it writes. *)
Record State : Type := {
  branches : list Branch;
  selectedBranch : option Branch;
  loading : bool;
  error : option string;
  storedBranchId : option string
}.

Definition initialState : State := {|
  branches := [];
  selectedBranch := None;
  loading := true;
  error := None;
  storedBranchId := None
|}.

(** How [api.branches.getAll()] settles: fulfilled with an array or with
    [null], or rejected with an error whose [message] may be missing. *)
Inductive GetAll : Type :=
| Data (data : option (list Branch))
| Failed (message : option string).

(** Truthiness of a string that may be [null] or [undefined]. *)
Definition truthy (s : option string) : bool :=
  match s with
  | Some s => negb (String.eqb s "")
  | None => false
  end.

(** [b => b.id === branchId] *)
Definition hasId (branchId : string) (b : Branch) : bool :=
  String.eqb (id b) branchId.

(** The auto-selection of [fetchBranches], on the array that was fetched. *)
Definition autoSelect (selected : option Branch) (brand : Brand)
    (data : list Branch) : option Branch :=
  if match selected with
     | Some sel => existsb (hasId (id sel)) data
     | None => false
     end
  then
    match selected with
    | Some sel => find (hasId (id sel)) data
    | None => None
    end
  else if truthy (main_branch_id brand)
          && match main_branch_id brand with
             | Some mainId => existsb (hasId mainId) data
             | None => false
             end
  then
    match main_branch_id brand with
    | Some mainId => find (hasId mainId) data
    | None => None
    end
  else if (0 <? Z.of_nat (List.length data))
  then nth_error data 0
  else None.

(** [fetchBranches].  [typeErrorMessage] is the engine's message for the
    TypeError raised when the response is [null] and the selection logic
    reads [data.some] or [data.length]; that error is caught like a rejected
    request. *)
Definition fetchBranches (typeErrorMessage : string)
    (user : option User) (brand : option Brand) (response : GetAll)
    (st : State) : State :=
  match user, brand with
  | Some _, Some brand =>
      match response with
      | Data (Some data) =>
          {| branches := data;
             selectedBranch := autoSelect (selectedBranch st) brand data;
             loading := false;
             error := None;
             storedBranchId := storedBranchId st |}
      | Data None =>
          {| branches := [];
             selectedBranch := None;
             loading := false;
             error :=
               Some (if truthy (Some typeErrorMessage) then typeErrorMessage
                     else "Failed to load branches"%string);
             storedBranchId := storedBranchId st |}
      | Failed message =>
          {| branches := [];
             selectedBranch := None;
             loading := false;
             error :=
               Some (match message with
                     | Some m => if truthy message then m
                                 else "Failed to load branches"%string
                     | None => "Failed to load branches"%string
                     end);
             storedBranchId := storedBranchId st |}
      end
  | _, _ =>
      {| branches := [];
         selectedBranch := None;
         loading := false;
         error := error st;
         storedBranchId := storedBranchId st |}
  end.

(** [selectBranch(branchId)] *)
Definition selectBranch (branchId : string) (st : State) : State :=
  match find (hasId branchId) (branches st) with
  | Some branch =>
      {| branches := branches st;
         selectedBranch := Some branch;
         loading := loading st;
         error := error st;
         storedBranchId := Some branchId |}
  | None => st
  end.

(** [selectBranchByObject(branch)] *)
Definition selectBranchByObject (branch : option Branch) (st : State) : State :=
  match branch with
  | Some b =>
      if truthy (Some (id b))
      then {| branches := branches st;
              selectedBranch := Some b;
              loading := loading st;
              error := error st;
              storedBranchId := Some (id b) |}
      else st
  | None => st
  end.

(** [branchCount: branches.length] in the context value. *)
Definition branchCount (st : State) : Z := Z.of_nat (List.length (branches st)).

End BranchSelection.

(** ** The pricing functions of the database
    ([supabase/migrations/003_branch_based_pricing.sql])

    PL/pgSQL on PostgreSQL's exact [numeric] type.  A value may be NULL
    ([None]); arithmetic on a NULL is NULL; assigning to a [DECIMAL(10,2)]
    variable rounds to two decimals, half away from zero, and raises
    "numeric field overflow" when the rounded value needs more than eight
    digits before the point. *)

Module Sql.

(** A [DECIMAL(10,2)] value, held as its number of hundredths. *)
Definition decimal_10_2 : Type := Z.

Definition numeric_of (c : decimal_10_2) : Q := c # 100.

Arguments numeric_of c%_Z.

(** Rounding to an integer, half away from zero. *)
Definition round_half_away (q : Q) : Z :=
  if Qle_bool 0 q then Qfloor (q + (1 # 2)) else - Qfloor (- q + (1 # 2)).

Inductive result (A : Type) : Type :=
| Ok (a : A)
| NumericFieldOverflow.

Arguments Ok {A} a.
Arguments NumericFieldOverflow {A}.

Definition bind {A B : Type} (r : result A) (k : A -> result B) : result B :=
  match r with
  | Ok a => k a
  | NumericFieldOverflow => NumericFieldOverflow
  end.

(** Assignment of a numeric, or of NULL, to a [DECIMAL(10,2)] variable. *)
Definition to_decimal_10_2 (v : option Q) : result (option decimal_10_2) :=
  match v with
  | None => Ok None
  | Some q =>
      let c := round_half_away (q * 100) in
      if Z.abs c <? 10 ^ 10 then Ok (Some c) else NumericFieldOverflow
  end.

(** A binary operator on values that may be NULL. *)
Definition lift2 (op : Q -> Q -> Q) (a b : option Q) : option Q :=
  match a, b with
  | Some x, Some y => Some (op x y)
  | _, _ => None
  end.

Definition numeric (c : option decimal_10_2) : option Q :=
  option_map numeric_of c.

Definition integer (z : option Z) : option Q := option_map inject_Z z.

(** A row of [pricing_config] (the columns the functions read). *)
Record pricing_config : Type := {
  currency : option string;
  base_price_monthly : option decimal_10_2;
  additional_branch_price : option decimal_10_2;
  yearly_discount_percent : option Z
}.

(** The row inserted by the migration: ['SAR', 299.00, 99.00] and the
    column default [17]. *)
Definition default_config : pricing_config := {|
  currency := Some "SAR"%string;
  base_price_monthly := Some 29900;
  additional_branch_price := Some 9900;
  yearly_discount_percent := Some 17
|}.

(** A column of the record filled by [SELECT * INTO config ... LIMIT 1];
    [config] is [None] when no active row exists, and every column of the
    record is then NULL. *)
Definition column {A : Type} (config : option pricing_config)
    (f : pricing_config -> option A) : option A :=
  match config with
  | Some row => f row
  | None => None
  end.

(** [GREATEST(0, x)]: a NULL argument is ignored. *)
Definition greatest_0 (x : option Z) : Z :=
  match x with
  | Some z => Z.max 0 z
  | None => 0
  end.

(** [calculate_monthly_price(branch_count INTEGER)] *)
Definition calculate_monthly_price (config : option pricing_config)
    (branch_count : option Z) : result (option decimal_10_2) :=
  let branch_count :=
    match branch_count with
    | Some b => if b <? 1 then Some 1 else Some b
    | None => None
    end in
  let additional_branches :=
    greatest_0 (option_map (fun b => b - 1) branch_count) in
  to_decimal_10_2
    (lift2 Qplus
       (numeric (column config base_price_monthly))
       (lift2 Qmult (Some (inject_Z additional_branches))
          (numeric (column config additional_branch_price)))).

(** [calculate_yearly_price(branch_count INTEGER)] *)
Definition calculate_yearly_price (config : option pricing_config)
    (branch_count : option Z) : result (option decimal_10_2) :=
  bind (calculate_monthly_price config branch_count) (fun monthly_price =>
  bind (to_decimal_10_2 (numeric monthly_price)) (fun monthly_price =>
  bind (to_decimal_10_2
          (lift2 Qmult (numeric monthly_price) (Some 12%Q)))
       (fun yearly_price =>
  bind (to_decimal_10_2
          (lift2 Qdiv
             (lift2 Qmult (numeric yearly_price)
                (integer (column config yearly_discount_percent)))
             (Some 100%Q)))
       (fun discount_amount =>
  bind (to_decimal_10_2
          (lift2 Qminus (numeric yearly_price) (numeric discount_amount)))
       (fun yearly_price => Ok yearly_price))))).

End Sql.

(** ** Sample data for the examples *)

Definition exampleBranch (name : string) : Branch :=
  {| id := name; branch_name := name; branch_location := None |}.

Definition exampleStatistics (r o g : Q) : Statistics :=
  {| revenue := JS.Num r; orders := JS.Num o; growth := JS.Num g |}.

(** ** Vocabulary for the results of the aggregation *)

(** The comparator [(a, b) => key(b) - key(a)]. *)
Definition descendingComparator {A : Type} (key : A -> Q) : A -> A -> Q :=
  fun a b => (key b - key a)%Q.

(** [a] may stand before [b] in a list that is descending by [key]. *)
Definition descendingBy {A : Type} (key : A -> Q) : A -> A -> Prop :=
  fun a b => (key b <= key a)%Q.

(** The elements whose key is the number [r]. *)
Definition hasKey {A : Type} (key : A -> Q) (r : Q) : A -> bool :=
  fun a => Qeq_bool (key a) r.

(** The branches whose promise was fulfilled with a statistics object, in
    the order of [branches], each with that object. *)
Definition succeeded (fetched : list (Branch * Settled))
  : list (Branch * Statistics) :=
  flat_map (fun e =>
              match snd e with
              | Fulfilled (Some metrics) => [(fst e, metrics)]
              | _ => []
              end) fetched.

(** The rows of the succeeded branches, in the order of [branches]. *)
Definition succeededRows (fetched : list (Branch * Settled)) : list BranchRow :=
  map (fun e => makeRow (fst e) (snd e)) (succeeded fetched).


(** ** The specification's reading of the per-branch price

    The specification divides by an effective branch count, the count clamped
    up to [minBranches]; the code has no such intermediate value.  The
    definition follows the specification's words and is only used to compare
    with [perBranch] of [getPricingBreakdown]. *)



(** ** The concrete scenario of the specification *)

(** The scenario of the specification, with the yearly price of five
    branches left as a parameter. *)
Definition scenario_299_99_17 (yearly5 : Q) : Prop :=
  calculateMonthlyPrice 1 = 299
  /\ (calculateYearlyPrice 1 None == 2978.04)%Q
  /\ calculateMonthlyPrice 5 = 695
  /\ (calculateYearlyPrice 5 None == yearly5)%Q
  /\ difference (calculatePriceDifference 1 5) = 396
  /\ branchDifference (calculatePriceDifference 1 5) = 4
  /\ isIncrease (calculatePriceDifference 1 5) = true
  /\ (132.435 <= percentChange (calculatePriceDifference 1 5) < 132.445)%Q.

(** * Properties *)

(** ** The functions on small inputs *)

Example monthly_price_examples :
  map calculateMonthlyPrice [-3; 0; 1; 3; 5; 10]
  = [299; 299; 299; 497; 695; 1190].
Proof. reflexivity. Qed.

Example yearly_price_example :
  (calculateYearlyPrice 3 None == 4950.12)%Q.
Proof. reflexivity. Qed.

Example validate_error_text :
  error (validateBranchCount 0) = Some "Branch count must be at least 1"%string.
Proof. reflexivity. Qed.

Example Array_sort_example :
  Array_sort (fun a b : Q * string => (fst b - fst a)%Q)
    [(5%Q, "a"); (7%Q, "b"); (5%Q, "c"); (9%Q, "d"); (7%Q, "e")]%string
  = [(9%Q, "d"); (7%Q, "b"); (7%Q, "e"); (5%Q, "a"); (5%Q, "c")]%string.
Proof. reflexivity. Qed.

(** Three branches, the second of which fails to load. *)
Example fetchBrandMetrics_example :
  let branch (n : string) :=
    {| id := n; branch_name := n; branch_location := None |} in
  let stats (r o : Q) :=
    Fulfilled (Some {| revenue := JS.Num r; orders := JS.Num o;
                       growth := JS.Undefined |}) in
  let st :=
    fetchBrandMetrics
      [(branch "north", stats 100%Q 4%Q);
       (branch "east", Rejected "timeout");
       (branch "south", stats 300%Q 6%Q)]%string
      initialState in
  map row_id (branchPerformance st) = ["south"; "north"]%string
  /\ totalRevenue (brandMetrics st) = 400%Q
  /\ totalOrders (brandMetrics st) = 10%Q
  /\ (averageOrderValue (brandMetrics st) == 40)%Q
  /\ loading st = false.
Proof. cbv zeta. repeat split. Qed.

(** ** Shared facts about the monthly price *)

Lemma calculateMonthlyPrice_below_min (b : Z) :
  b < 1 -> calculateMonthlyPrice b = 299.
Proof.
  intros Hb. unfold calculateMonthlyPrice; cbn.
  destruct (Z.ltb_spec b 1); [reflexivity | lia].
Qed.

Lemma calculateMonthlyPrice_from_one (b : Z) :
  1 <= b -> calculateMonthlyPrice b = 299 + (b - 1) * 99.
Proof.
  intros Hb. unfold calculateMonthlyPrice; cbn.
  destruct (Z.ltb_spec b 1); [lia |].
  rewrite Z.max_r by lia. reflexivity.
Qed.

Lemma calculateMonthlyPrice_ge_base (b : Z) : 299 <= calculateMonthlyPrice b.
Proof.
  destruct (Z.lt_ge_cases b 1) as [Hb | Hb].
  - rewrite calculateMonthlyPrice_below_min by assumption. lia.
  - rewrite calculateMonthlyPrice_from_one by assumption. lia.
Qed.

Lemma inject_Z_pos (z : Z) : 0 < z -> (0 < inject_Z z)%Q.
Proof. intros Hz. unfold Qlt; cbn. lia. Qed.



(** ** C2 *)

(** C2.  For every integer [b >= 1] the monthly price is
    [basePriceMonthly + (b - 1) * additionalBranchPrice] and is at least
    [basePriceMonthly]; for every integer [b < minBranches] it equals the
    monthly price of [minBranches]. *)
Theorem calculateMonthlyPrice_formula_and_clamp (b : Z) :
  (1 <= b ->
     calculateMonthlyPrice b
       = basePriceMonthly PRICING_CONFIG
         + (b - 1) * additionalBranchPrice PRICING_CONFIG
     /\ basePriceMonthly PRICING_CONFIG <= calculateMonthlyPrice b)
  /\ (b < minBranches PRICING_CONFIG ->
        calculateMonthlyPrice b
          = calculateMonthlyPrice (minBranches PRICING_CONFIG)).
Proof.
  split.
  - intros Hb. split.
    + now apply calculateMonthlyPrice_from_one.
    + apply calculateMonthlyPrice_ge_base.
  - cbn. intros Hb. now rewrite calculateMonthlyPrice_below_min.
Qed.

Lemma calculateMonthlyPrice_formula_and_clamp_witness :
  (calculateMonthlyPrice 7 = 299 + (7 - 1) * 99 /\ 299 <= calculateMonthlyPrice 7)
  /\ calculateMonthlyPrice (-4) = calculateMonthlyPrice 1.
Proof.
  split.
  - apply (proj1 (calculateMonthlyPrice_formula_and_clamp 7)). lia.
  - apply (proj2 (calculateMonthlyPrice_formula_and_clamp (-4))). cbn. lia.
Defined.

(** ** C3 *)



(** ** C9 *)



(** ** C4 *)

(** C4, as stated, fails: the yearly price of five branches is
    [8340 - 1417.80 = 6922.20], not [6920.20]. *)
Lemma scenario_yearly5_not_6920_20 : ~ scenario_299_99_17 6920.20.
Proof.
  unfold scenario_299_99_17. intros (_ & _ & _ & H & _).
  vm_compute in H. discriminate H.
Qed.

(** C4 (amended).  Under base 299, per-branch 99 and discount 17:
    one branch costs 299 a month and 2978.04 a year; five branches cost 695
    a month and 6922.20 a year; going from one to five branches has delta
    396, branch delta 4, is an increase, and changes the price by
    [39600/299], i.e. 132.44 percent to two decimals. *)
Theorem scenario_yearly5_is_6922_20 :
  scenario_299_99_17 6922.20
  /\ (percentChange (calculatePriceDifference 1 5) == 39600 # 299)%Q.
Proof.
  unfold scenario_299_99_17.
  repeat split; try reflexivity; vm_compute; discriminate.
Qed.

(** ** C5 *)

(** C5, as stated, fails: a current count of [0] is priced at the base, so
    the current price of [calculatePriceDifference 0 5] is 299 and the
    percent change is [39600/299], not [0]. *)
Lemma priceDifference_from_zero_not_zero :
  ~ (forall b,
       currentPrice (calculatePriceDifference 0 b) = 0
       /\ (percentChange (calculatePriceDifference 0 b) == 0)%Q).
Proof.
  intros H. destruct (H 5) as [Hc _]. vm_compute in Hc. discriminate Hc.
Qed.

Lemma percentChange_unfold (a b : Z) :
  percentChange (calculatePriceDifference a b)
  = (inject_Z (difference (calculatePriceDifference a b))
     / inject_Z (currentPrice (calculatePriceDifference a b)) * 100)%Q.
Proof.
  unfold calculatePriceDifference; cbn [percentChange difference currentPrice].
  pose proof (calculateMonthlyPrice_ge_base a) as Ha.
  destruct (Z.ltb_spec 0 (calculateMonthlyPrice a)); [reflexivity | lia].
Qed.

(** C5 (amended).  [percentChange] is [delta / currentPrice * 100] when the
    current price is positive and [0] otherwise; the current price is never
    below 299, so the quotient is always the one returned and its divisor
    is never zero.  For a current count of [0] the current price is 299 and
    the percent change is [(newPrice - 299) / 299 * 100], which is [0]
    exactly when the new count is at most [1]. *)
Theorem percentChange_guarded (a b : Z) :
  let r := calculatePriceDifference a b in
  (0 < currentPrice r ->
     (percentChange r
        == inject_Z (difference r) / inject_Z (currentPrice r) * 100)%Q)
  /\ (currentPrice r <= 0 -> (percentChange r == 0)%Q)
  /\ 299 <= currentPrice r
  /\ currentPrice (calculatePriceDifference 0 b) = 299
  /\ (percentChange (calculatePriceDifference 0 b)
        == (inject_Z (calculateMonthlyPrice b) - 299) / 299 * 100)%Q
  /\ ((percentChange (calculatePriceDifference 0 b) == 0)%Q <-> b <= 1).
Proof.
  cbv zeta.
  assert (H0 : (percentChange (calculatePriceDifference 0 b)
                == (inject_Z (calculateMonthlyPrice b) - 299) / 299 * 100)%Q).
  { rewrite percentChange_unfold. cbn [difference currentPrice calculatePriceDifference].
    change (calculateMonthlyPrice 0) with 299.
    unfold Zminus. rewrite inject_Z_plus. reflexivity. }
  repeat split.
  - intros _. rewrite percentChange_unfold. reflexivity.
  - intros Hle. pose proof (calculateMonthlyPrice_ge_base a).
    cbn [currentPrice calculatePriceDifference] in Hle. lia.
  - apply calculateMonthlyPrice_ge_base.
  - exact H0.
  - rewrite H0. intros Hz.
    destruct (Z.le_gt_cases b 1) as [Hb | Hb]; [assumption | exfalso].
    assert (Hm : (inject_Z 299 < inject_Z (calculateMonthlyPrice b))%Q).
    { rewrite <- Zlt_Qlt. rewrite calculateMonthlyPrice_from_one by lia. lia. }
    change (inject_Z 299) with 299%Q in Hm.
    revert Hz Hm. generalize (inject_Z (calculateMonthlyPrice b)). intros m.
    unfold Qdiv; change (/ 299)%Q with (1 # 299)%Q. lra.
  - rewrite H0. intros Hb.
    assert (Hm : calculateMonthlyPrice b = 299).
    { destruct (Z.eq_dec b 1) as [-> | Hne]; [reflexivity |].
      apply calculateMonthlyPrice_below_min. lia. }
    rewrite Hm. reflexivity.
Qed.

Lemma percentChange_guarded_witness :
  (percentChange (calculatePriceDifference 2 4)
     == inject_Z (difference (calculatePriceDifference 2 4))
        / inject_Z (currentPrice (calculatePriceDifference 2 4)) * 100)%Q
  /\ (percentChange (calculatePriceDifference 0 1) == 0)%Q.
Proof.
  split.
  - apply (proj1 (percentChange_guarded 2 4)). cbn. lia.
  - apply (proj2 (proj2 (proj2 (proj2 (proj2 (percentChange_guarded 2 1)))))).
    lia.
Defined.

(** ** C1 *)




(** ** C8 *)

(** C8.  [validateBranchCount] is total; the result is invalid exactly when
    the count is below [minBranches]; the error is a string when invalid and
    [null] when valid; [0] is invalid with an error and [1] is valid with
    none. *)
Theorem validateBranchCount_spec (branchCount : Z) :
  (isValid (validateBranchCount branchCount) = false
     <-> branchCount < minBranches PRICING_CONFIG)
  /\ (if isValid (validateBranchCount branchCount)
      then error (validateBranchCount branchCount) = None
      else error (validateBranchCount branchCount)
           = Some "Branch count must be at least 1"%string)
  /\ isValid (validateBranchCount 0) = false
  /\ error (validateBranchCount 0) <> None
  /\ isValid (validateBranchCount 1) = true
  /\ error (validateBranchCount 1) = None.
Proof.
  repeat split; try reflexivity; try discriminate.
  - unfold validateBranchCount; cbn. rewrite andb_true_r.
    intros H. apply Z.leb_gt in H. exact H.
  - unfold validateBranchCount; cbn. rewrite andb_true_r.
    intros H. apply Z.leb_gt. exact H.
  - unfold validateBranchCount; cbn. rewrite andb_true_r.
    destruct (1 <=? branchCount); reflexivity.
Qed.

Lemma validateBranchCount_spec_witness :
  isValid (validateBranchCount (-3)) = false.
Proof.
  apply (proj1 (validateBranchCount_spec (-3))). cbn. lia.
Defined.

(** ** C10 *)

(** C10.  For every pair of counts the result of [calculatePriceDifference]
    has [difference = newPrice - currentPrice] and
    [branchDifference = newBranches - currentBranches]; [isIncrease] and
    [isDecrease] are never both true, and exactly one of [isIncrease],
    [isDecrease], [difference = 0] holds; with equal counts the difference
    is [0] and both flags are false. *)
Theorem calculatePriceDifference_invariants (currentBranches newBranches : Z) :
  let r := calculatePriceDifference currentBranches newBranches in
  currentPrice r = calculateMonthlyPrice currentBranches
  /\ newPrice r = calculateMonthlyPrice newBranches
  /\ difference r = newPrice r - currentPrice r
  /\ branchDifference r = newBranches - currentBranches
  /\ isIncrease r && isDecrease r = false
  /\ ((isIncrease r = true /\ isDecrease r = false /\ difference r <> 0)
      \/ (isIncrease r = false /\ isDecrease r = true /\ difference r <> 0)
      \/ (isIncrease r = false /\ isDecrease r = false /\ difference r = 0))
  /\ difference (calculatePriceDifference currentBranches currentBranches) = 0
  /\ isIncrease (calculatePriceDifference currentBranches currentBranches) = false
  /\ isDecrease (calculatePriceDifference currentBranches currentBranches) = false.
Proof.
  cbv zeta.
  cbn [calculatePriceDifference currentPrice newPrice difference
       branchDifference isIncrease isDecrease].
  set (d := calculateMonthlyPrice newBranches
            - calculateMonthlyPrice currentBranches).
  rewrite Z.sub_diag.
  repeat split; try reflexivity.
  - destruct (Z.ltb_spec 0 d), (Z.ltb_spec d 0); try reflexivity; lia.
  - destruct (Z.ltb_spec 0 d), (Z.ltb_spec d 0);
      [ lia
      | left; repeat split; lia
      | right; left; repeat split; lia
      | right; right; repeat split; lia ].
Qed.

(** ** Sorting by a numeric key, descending

    The facts below are about [Array_sort] with a comparator of the shape
    [(a, b) => key(b) - key(a)]. *)

Section SortDescending.

Context {A : Type}.
Variable key : A -> Q.

Local Abbreviation compareFn := (descendingComparator key).
Local Abbreviation desc := (descendingBy key).
Local Abbreviation keyIs := (hasKey key).

Lemma compareFn_nonpos (x y : A) :
  Qle_bool (compareFn x y) 0 = true <-> (key y <= key x)%Q.
Proof.
  rewrite Qle_bool_iff. unfold descendingComparator. split; intros H; lra.
Qed.

Lemma compareFn_pos (x y : A) :
  Qle_bool (compareFn x y) 0 = false -> (key x < key y)%Q.
Proof.
  intros H. apply Qnot_le_lt. intros Hle.
  apply compareFn_nonpos in Hle. congruence.
Qed.

Lemma Array_sort_insert_perm (x : A) (l : list A) :
  Permutation (x :: l) (Array_sort_insert compareFn x l).
Proof.
  induction l as [| y l IH]; cbn.
  - reflexivity.
  - destruct (Qle_bool (compareFn x y) 0).
    + reflexivity.
    + rewrite perm_swap. now apply perm_skip.
Qed.

Lemma Array_sort_perm (l : list A) :
  Permutation l (Array_sort compareFn l).
Proof.
  induction l as [| x l IH]; cbn.
  - reflexivity.
  - rewrite <- Array_sort_insert_perm. now apply perm_skip.
Qed.

Lemma Array_sort_insert_sorted (x : A) (l : list A) :
  StronglySorted desc l ->
  StronglySorted desc (Array_sort_insert compareFn x l).
Proof.
  induction 1 as [| y l Hl IH Hy]; cbn.
  - repeat constructor.
  - destruct (Qle_bool (compareFn x y) 0) eqn:E.
    + apply compareFn_nonpos in E.
      constructor; [now constructor |].
      constructor; [exact E |].
      eapply Forall_impl; [| exact Hy].
      unfold descendingBy. intros z Hz. lra.
    + apply compareFn_pos in E.
      constructor; [exact IH |].
      eapply Permutation_Forall; [apply Array_sort_insert_perm |].
      constructor; [| exact Hy].
      unfold descendingBy. lra.
Qed.

Lemma Array_sort_sorted (l : list A) :
  StronglySorted desc (Array_sort compareFn l).
Proof.
  induction l as [| x l IH]; cbn.
  - constructor.
  - now apply Array_sort_insert_sorted.
Qed.

(** Stability: the elements of one key value keep their relative order. *)
Lemma Array_sort_insert_stable (r : Q) (x : A) (l : list A) :
  filter (keyIs r) (Array_sort_insert compareFn x l)
  = filter (keyIs r) (x :: l).
Proof.
  induction l as [| y l IH]; [reflexivity |].
  cbn [Array_sort_insert].
  destruct (Qle_bool (compareFn x y) 0) eqn:E; [reflexivity |].
  apply compareFn_pos in E.
  cbn [filter] in *. rewrite IH.
  destruct (keyIs r x) eqn:Ex; [| reflexivity].
  destruct (keyIs r y) eqn:Ey; [| reflexivity].
  unfold hasKey in Ex, Ey.
  apply Qeq_bool_eq in Ex. apply Qeq_bool_eq in Ey. lra.
Qed.

Lemma Array_sort_stable (r : Q) (l : list A) :
  filter (keyIs r) (Array_sort compareFn l) = filter (keyIs r) l.
Proof.
  induction l as [| x l IH]; [reflexivity |].
  cbn [Array_sort]. rewrite Array_sort_insert_stable.
  cbn [filter]. now rewrite IH.
Qed.

Lemma keyIs_self (x : A) : keyIs (key x) x = true.
Proof. unfold hasKey. apply Qeq_bool_iff. reflexivity. Qed.

Lemma keyIs_below (r : Q) (l : list A) :
  Forall (fun z => (key z < r)%Q) l -> filter (keyIs r) l = [].
Proof.
  induction 1 as [| z l Hz _ IH]; [reflexivity |].
  cbn [filter]. rewrite IH.
  destruct (keyIs r z) eqn:E; [| reflexivity].
  unfold hasKey in E. apply Qeq_bool_eq in E. lra.
Qed.

(** A descending list whose head is [y] holds no element of a key above
    that of [y]. *)
Lemma sorted_head_bounds (x y : A) (l : list A) :
  StronglySorted desc (y :: l) -> (key y < key x)%Q ->
  filter (keyIs (key x)) (y :: l) = [].
Proof.
  intros Hs Hlt. apply keyIs_below.
  apply StronglySorted_inv in Hs as [_ Hy].
  constructor; [exact Hlt |].
  eapply Forall_impl; [| exact Hy]. unfold descendingBy. intros z Hz. lra.
Qed.

(** Two descending arrangements with the same elements of every key value,
    in the same order, are the same list. *)
Lemma sorted_stable_unique (l1 l2 : list A) :
  StronglySorted desc l1 -> StronglySorted desc l2 ->
  (forall r, filter (keyIs r) l1 = filter (keyIs r) l2) ->
  l1 = l2.
Proof.
  revert l2. induction l1 as [| x t1 IH]; intros l2 H1 H2 Hf.
  - destruct l2 as [| y t2]; [reflexivity |].
    specialize (Hf (key y)). cbn [filter] in Hf.
    rewrite keyIs_self in Hf. discriminate Hf.
  - destruct l2 as [| y t2].
    + specialize (Hf (key x)). cbn [filter] in Hf.
      rewrite keyIs_self in Hf. discriminate Hf.
    + assert (Hk : (key x == key y)%Q).
      { destruct (Q_dec (key x) (key y)) as [[Hlt | Hgt] | Heq];
          [exfalso | exfalso | exact Heq].
        - pose proof (Hf (key y)) as Hy.
          rewrite (sorted_head_bounds y x t1 H1 Hlt) in Hy.
          cbn [filter] in Hy. rewrite keyIs_self in Hy. discriminate Hy.
        - pose proof (Hf (key x)) as Hx.
          rewrite (sorted_head_bounds x y t2 H2 Hgt) in Hx.
          cbn [filter] in Hx. rewrite keyIs_self in Hx. discriminate Hx. }
      assert (Hsame : forall r, keyIs r x = keyIs r y).
      { intros r. unfold hasKey.
        destruct (Qeq_bool (key x) r) eqn:Ex, (Qeq_bool (key y) r) eqn:Ey;
          try reflexivity.
        - apply Qeq_bool_eq in Ex. apply Qeq_bool_neq in Ey.
          exfalso. apply Ey. rewrite <- Hk. exact Ex.
        - apply Qeq_bool_eq in Ey. apply Qeq_bool_neq in Ex.
          exfalso. apply Ex. rewrite Hk. exact Ey. }
      assert (Hxy : x = y).
      { specialize (Hf (key x)). cbn [filter] in Hf.
        rewrite <- Hsame, keyIs_self in Hf. now injection Hf. }
      subst y. f_equal.
      apply StronglySorted_inv in H1 as [H1 _].
      apply StronglySorted_inv in H2 as [H2 _].
      apply IH; [assumption | assumption |].
      intros r. specialize (Hf r). cbn [filter] in Hf.
      destruct (keyIs r x); [now injection Hf | exact Hf].
Qed.

(** Any stable, descending arrangement of [l] is the one [Array_sort]
    computes: the result does not depend on the sorting algorithm. *)
Lemma Array_sort_unique (l l' : list A) :
  StronglySorted desc l' ->
  (forall r, filter (keyIs r) l' = filter (keyIs r) l) ->
  l' = Array_sort compareFn l.
Proof.
  intros Hs Hf. apply sorted_stable_unique.
  - exact Hs.
  - apply Array_sort_sorted.
  - intros r. rewrite Array_sort_stable. apply Hf.
Qed.

End SortDescending.

(** ** The aggregation loop *)

Lemma combine_branches_metrics (fetched : list (Branch * Settled)) :
  combine (map fst fetched) (map (fun e => catch_null (snd e)) fetched)
  = map (fun e => (fst e, catch_null (snd e))) fetched.
Proof.
  induction fetched as [| e l IH]; cbn; [reflexivity | now rewrite IH].
Qed.



(** What the [forEach] loop leaves in its accumulators. *)
Lemma forEach_result (fetched : list (Branch * Settled)) (acc : Accumulator) :
  fold_left forEach_body
    (map (fun e => (fst e, catch_null (snd e))) fetched) acc
  = {| acc_totalRevenue :=
         fold_left Qplus
           (map (fun e => JS.or0 (revenue (snd e))) (succeeded fetched))
           (acc_totalRevenue acc);
       acc_totalOrders :=
         fold_left Qplus
           (map (fun e => JS.or0 (orders (snd e))) (succeeded fetched))
           (acc_totalOrders acc);
       branchPerformanceData :=
         branchPerformanceData acc ++ succeededRows fetched |}.
Proof.
  revert acc. induction fetched as [| [b p] l IH]; intros acc.
  - cbn. rewrite app_nil_r. now destruct acc.
  - cbn [map fold_left fst snd]. rewrite IH.
    destruct p as [[m |] | err]; cbn [catch_null forEach_body]; try reflexivity.
    cbn [acc_totalRevenue acc_totalOrders branchPerformanceData].
    rewrite <- app_assoc. reflexivity.
Qed.

Lemma fetchBrandMetrics_rows (fetched : list (Branch * Settled))
    (st : OverviewState) :
  branchPerformance (fetchBrandMetrics fetched st)
  = Array_sort byRevenueDesc (succeededRows fetched).
Proof.
  unfold fetchBrandMetrics. cbn [branchPerformance].
  rewrite combine_branches_metrics, forEach_result. reflexivity.
Qed.

Lemma fetchBrandMetrics_depends_on_succeeded
    (f1 f2 : list (Branch * Settled)) (st1 st2 : OverviewState) :
  succeeded f1 = succeeded f2 ->
  fetchBrandMetrics f1 st1 = fetchBrandMetrics f2 st2.
Proof.
  intros H. unfold fetchBrandMetrics.
  rewrite !combine_branches_metrics, !forEach_result.
  unfold succeededRows. now rewrite H.
Qed.

(** ** C6 *)


(** ** C7 *)

(** C7.  The performance table is the sequence of rows built from the
    input, sorted in descending order of revenue, and rows of equal revenue
    keep their original relative order. *)
Theorem branchPerformance_sorted_stable
    (fetched : list (Branch * Settled)) (st : OverviewState) :
  let table := branchPerformance (fetchBrandMetrics fetched st) in
  Permutation (succeededRows fetched) table
  /\ StronglySorted (descendingBy row_revenue) table
  /\ forall r : Q,
       filter (hasKey row_revenue r) table
       = filter (hasKey row_revenue r) (succeededRows fetched).
Proof.
  cbv zeta. rewrite fetchBrandMetrics_rows. repeat split.
  - apply (Array_sort_perm row_revenue).
  - apply (Array_sort_sorted row_revenue).
  - intros r. apply (Array_sort_stable row_revenue).
Qed.

(** * Further properties of the pricing functions *)

(** ** Monotonicity of the monthly price *)



(** ** The breakdown adds up *)

(** X2.  For every integer count the figures of the breakdown are
    consistent: the base price plus the cost of the additional branches is
    the monthly total, and the number of additional branches is
    [branchCount - 1] from one branch on and [0] below. *)
Theorem getPricingBreakdown_adds_up (branchCount : Z) :
  let p := getPricingBreakdown branchCount in
  basePrice p + additionalBranchCost p = monthly_total (monthly p)
  /\ additionalBranchCost p = 99 * additionalBranches p
  /\ additionalBranches p = Z.max 0 (branchCount - 1)
  /\ 0 <= additionalBranches p
  /\ pb_branchCount p = branchCount.
Proof.
  cbv zeta.
  cbn [getPricingBreakdown basePrice additionalBranchCost additionalBranches
       monthly monthly_total pb_branchCount].
  change (additionalBranchPrice PRICING_CONFIG) with 99.
  change (basePriceMonthly PRICING_CONFIG) with 299.
  repeat split; try lia.
  destruct (Z.lt_ge_cases branchCount 1) as [Hb | Hb].
  - rewrite calculateMonthlyPrice_below_min by assumption. lia.
  - rewrite calculateMonthlyPrice_from_one by assumption. lia.
Qed.

(** ** The yearly part of the breakdown *)


Lemma monthly_Q_pos (b : Z) : (0 < inject_Z (calculateMonthlyPrice b))%Q.
Proof.
  apply inject_Z_pos. pose proof (calculateMonthlyPrice_ge_base b). lia.
Qed.



(** ** The yearly price as a function of the discount and of the count *)






(** ** Price differences *)




(** X9.  The percent change has the sign of the price difference, and it is
    always above [-100]: no change of count removes the whole price. *)
Theorem percentChange_sign_and_floor (a b : Z) :
  let r := calculatePriceDifference a b in
  (isIncrease r = true <-> (0 < percentChange r)%Q)
  /\ (isDecrease r = true <-> (percentChange r < 0)%Q)
  /\ (difference r = 0 <-> (percentChange r == 0)%Q)
  /\ (-100 < percentChange r)%Q.
Proof.
  cbv zeta. rewrite percentChange_unfold.
  cbn [calculatePriceDifference difference isIncrease isDecrease currentPrice].
  rewrite !Z.ltb_lt.
  pose proof (monthly_Q_pos a) as Ha. pose proof (monthly_Q_pos b) as Hb.
  unfold Zminus. rewrite inject_Z_plus, inject_Z_opp.
  rewrite (Zlt_Qlt 0), (Zlt_Qlt _ 0), inject_Z_plus, inject_Z_opp.
  assert (Hz : forall z : Z, z = 0 <-> (inject_Z z == 0)%Q).
  { intros z. unfold Qeq; cbn. lia. }
  rewrite Hz, inject_Z_plus, inject_Z_opp.
  change (inject_Z 0) with 0%Q.
  set (pa := inject_Z (calculateMonthlyPrice a)) in *.
  set (pb := inject_Z (calculateMonthlyPrice b)) in *.
  assert (Hq : ((pb + - pa) / pa * 100 == 100 * (pb / pa) - 100)%Q).
  { field. lra. }
  rewrite Hq.
  assert (Hr : (0 < pb / pa)%Q).
  { apply Qlt_shift_div_l; lra. }
  assert (Hlt : (pb / pa < 1)%Q <-> (pb < pa)%Q).
  { split; intros H.
    - apply (Qmult_lt_r _ _ pa Ha) in H.
      unfold Qdiv in H. rewrite <- Qmult_assoc, (Qmult_comm (/ pa)) in H.
      rewrite Qmult_inv_r in H by lra. lra.
    - apply Qlt_shift_div_r; lra. }
  assert (Hgt : (1 < pb / pa)%Q <-> (pa < pb)%Q).
  { split; intros H.
    - apply (Qmult_lt_r _ _ pa Ha) in H.
      unfold Qdiv in H. rewrite <- Qmult_assoc, (Qmult_comm (/ pa)) in H.
      rewrite Qmult_inv_r in H by lra. lra.
    - apply Qlt_shift_div_l; lra. }
  set (q := (pb / pa)%Q) in *.
  repeat split; intros; lra.
Qed.

Lemma percentChange_sign_and_floor_witness :
  (0 < percentChange (calculatePriceDifference 1 5))%Q
  /\ (percentChange (calculatePriceDifference 7 2) < 0)%Q.
Proof.
  split.
  - apply (proj1 (proj1 (percentChange_sign_and_floor 1 5))). reflexivity.
  - apply (proj1 (proj1 (proj2 (percentChange_sign_and_floor 7 2)))).
    reflexivity.
Defined.

(** ** The pricing card of [BrandOverview] *)

Lemma div_by_nonzero (x : Q) (z : Z) :
  z <> 0 -> JS.div x (inject_Z z) = JS.Fin (x / inject_Z z).
Proof.
  intros Hz. unfold JS.div.
  destruct (Qeq_bool (inject_Z z) 0) eqn:E; [| reflexivity].
  apply Qeq_bool_eq in E. unfold Qeq in E; cbn in E. lia.
Qed.

Lemma pricingInfoAfter_snoc (counts : list Z) (c : Z) :
  pricingInfoAfter (counts ++ [c]) = pricingEffect (pricingInfoAfter counts) c.
Proof. unfold pricingInfoAfter. now rewrite fold_left_app. Qed.

(** X10.  Whatever values the branch count goes through, the pricing info
    held by the page is the breakdown of the most recent positive count
    ([null] while there has been none): a count of zero never reaches
    [getPricingBreakdown], so the per-branch price on display is always
    finite; and after the count drops to zero the page keeps the breakdown
    of the last positive count. *)
Theorem pricingInfo_is_last_positive (branchCounts : list Z) :
  pricingInfoAfter branchCounts
  = option_map getPricingBreakdown (find (Z.ltb 0) (rev branchCounts))
  /\ (forall p, pricingInfoAfter branchCounts = Some p ->
        0 < pb_branchCount p
        /\ In (pb_branchCount p) branchCounts
        /\ JS.isFinite (perBranch (monthly p)) = true).
Proof.
  assert (H : pricingInfoAfter branchCounts
              = option_map getPricingBreakdown
                  (find (Z.ltb 0) (rev branchCounts))).
  { induction branchCounts as [| c l IH] using rev_ind; [reflexivity |].
    rewrite pricingInfoAfter_snoc, rev_app_distr. cbn [rev app find].
    unfold pricingEffect. destruct (0 <? c); [reflexivity | exact IH]. }
  split; [exact H |].
  intros p Hp. rewrite H in Hp.
  destruct (find (Z.ltb 0) (rev branchCounts)) as [c |] eqn:E;
    [| discriminate Hp].
  apply find_some in E as [Hin Hc]. apply Z.ltb_lt in Hc.
  apply in_rev in Hin.
  injection Hp as <-.
  cbn [getPricingBreakdown pb_branchCount monthly perBranch].
  rewrite div_by_nonzero by lia. repeat split; assumption.
Qed.

Lemma pricingInfo_is_last_positive_witness :
  0 < pb_branchCount (getPricingBreakdown 3)
  /\ In (pb_branchCount (getPricingBreakdown 3)) [0; 2; 3; 0]
  /\ JS.isFinite (perBranch (monthly (getPricingBreakdown 3))) = true.
Proof.
  apply (proj2 (pricingInfo_is_last_positive [0; 2; 3; 0])). reflexivity.
Defined.

(** * Further properties of the aggregation *)

(** ** Sums of columns *)











(** ** Nothing loaded *)

(** X11.  When no branch delivers statistics (no branches at all, or every
    fetch rejected or resolved to [null]) the aggregation ends with all four
    metrics at [0], an empty performance table and [loading] off: no
    quotient is taken over an empty set. *)
Theorem fetchBrandMetrics_nothing_loaded
    (fetched : list (Branch * Settled)) (st : OverviewState) :
  Forall (fun e => catch_null (snd e) = None) fetched ->
  fetchBrandMetrics fetched st
  = {| loading := false;
       brandMetrics := {| totalRevenue := 0; totalOrders := 0;
                          averageOrderValue := 0; growthRate := 0 |};
       branchPerformance := [] |}.
Proof.
  intros H.
  rewrite (fetchBrandMetrics_depends_on_succeeded fetched [] st st);
    [reflexivity |].
  induction H as [| [b p] l Hp _ IH]; [reflexivity |].
  cbn in Hp. unfold succeeded in *. cbn [flat_map snd fst].
  destruct p as [[m |] | err]; [discriminate Hp | exact IH | exact IH].
Qed.

Lemma fetchBrandMetrics_nothing_loaded_witness :
  fetchBrandMetrics
    [({| id := "a"; branch_name := "A"; branch_location := None |},
      Rejected "timeout");
     ({| id := "b"; branch_name := "B"; branch_location := None |},
      Fulfilled None)]%string initialState
  = {| loading := false;
       brandMetrics := {| totalRevenue := 0; totalOrders := 0;
                          averageOrderValue := 0; growthRate := 0 |};
       branchPerformance := [] |}.
Proof.
  apply fetchBrandMetrics_nothing_loaded.
  repeat constructor.
Defined.

(** ** The cards agree with the table *)




(** ** The average order of a row *)







(** ** The order of the table *)

(** X15.  The first row of the performance table has the largest revenue
    and the last row the smallest: no row of the table has a revenue above
    that of the first row or below that of the last. *)
Theorem branchPerformance_extremes
    (fetched : list (Branch * Settled)) (st : OverviewState) (row : BranchRow) :
  In row (branchPerformance (fetchBrandMetrics fetched st)) ->
  (forall top rest,
     branchPerformance (fetchBrandMetrics fetched st) = top :: rest ->
     (row_revenue row <= row_revenue top)%Q)
  /\ (forall front bottom,
        branchPerformance (fetchBrandMetrics fetched st) = front ++ [bottom] ->
        (row_revenue bottom <= row_revenue row)%Q).
Proof.
  intros Hin.
  assert (Hs : StronglySorted (descendingBy row_revenue)
                 (branchPerformance (fetchBrandMetrics fetched st))).
  { rewrite fetchBrandMetrics_rows. apply (Array_sort_sorted row_revenue). }
  split.
  - intros top rest E. rewrite E in Hs, Hin.
    apply StronglySorted_inv in Hs as [_ Hall].
    destruct Hin as [<- | Hin]; [apply Qle_refl |].
    rewrite Forall_forall in Hall. apply (Hall row Hin).
  - intros front bottom E. rewrite E in Hs, Hin. clear E.
    induction front as [| x front IH].
    + destruct Hin as [<- | []]. apply Qle_refl.
    + cbn [app] in Hs, Hin.
      apply StronglySorted_inv in Hs as [Hs Hall].
      destruct Hin as [<- | Hin]; [| now apply IH].
      rewrite Forall_forall in Hall. apply (Hall bottom).
      apply in_or_app. right. now left.
Qed.

Lemma branchPerformance_extremes_witness :
  (row_revenue (makeRow (exampleBranch "a"%string) (exampleStatistics 10 1 0))
   <= row_revenue (makeRow (exampleBranch "b"%string)
                     (exampleStatistics 30 2 0)))%Q.
Proof.
  apply (proj1 (branchPerformance_extremes
    [(exampleBranch "a"%string, Fulfilled (Some (exampleStatistics 10 1 0)));
     (exampleBranch "b"%string, Fulfilled (Some (exampleStatistics 30 2 0)))]
    initialState
    (makeRow (exampleBranch "a"%string) (exampleStatistics 10 1 0))
    (or_intror (or_introl eq_refl)))
    (makeRow (exampleBranch "b"%string) (exampleStatistics 30 2 0))
    [makeRow (exampleBranch "a"%string) (exampleStatistics 10 1 0)]).
  reflexivity.
Defined.

(** ** Independence from the order of the branches *)

Section SortOfPermutation.

Context {A : Type}.
Variable key : A -> Q.

Local Abbreviation keyIs := (hasKey key).

Lemma hasKey_Qeq (r : Q) (x y : A) :
  (key x == key y)%Q -> keyIs r x = keyIs r y.
Proof.
  intros H. unfold hasKey.
  destruct (Qeq_bool (key x) r) eqn:Ex, (Qeq_bool (key y) r) eqn:Ey;
    try reflexivity.
  - apply Qeq_bool_eq in Ex. apply Qeq_bool_neq in Ey.
    exfalso. apply Ey. rewrite <- H. exact Ex.
  - apply Qeq_bool_eq in Ey. apply Qeq_bool_neq in Ex.
    exfalso. apply Ex. rewrite H. exact Ey.
Qed.



End SortOfPermutation.




(** * Properties of the branch selection *)

Lemma existsb_find_hasId (branchId : string) (data : list Branch) :
  existsb (BranchSelection.hasId branchId) data = true ->
  exists b, find (BranchSelection.hasId branchId) data = Some b
            /\ id b = branchId /\ In b data.
Proof.
  intros H. destruct (find (BranchSelection.hasId branchId) data) as [b |] eqn:E.
  - exists b. apply find_some in E as [Hin Hid].
    apply String.eqb_eq in Hid. repeat split; assumption.
  - apply existsb_exists in H as (b & Hin & Hb).
    rewrite (find_none _ _ E b Hin) in Hb. discriminate Hb.
Qed.

Lemma existsb_hasId_In (branchId : string) (data : list Branch) :
  existsb (BranchSelection.hasId branchId) data = true
  <-> In branchId (map id data).
Proof.
  rewrite existsb_exists, in_map_iff. unfold BranchSelection.hasId.
  split; intros (b & H1 & H2).
  - exists b. apply String.eqb_eq in H2. now split.
  - exists b. split; [assumption |]. now apply String.eqb_eq.
Qed.

Lemma autoSelect_member (selected : option Branch)
    (brand : BranchSelection.Brand) (data : list Branch) :
  match BranchSelection.autoSelect selected brand data with
  | Some b => In b data
  | None => data = []
  end.
Proof.
  unfold BranchSelection.autoSelect.
  destruct selected as [sel |].
  - destruct (existsb (BranchSelection.hasId (id sel)) data) eqn:E.
    + destruct (existsb_find_hasId _ _ E) as (b & -> & _ & Hin). exact Hin.
    + destruct (BranchSelection.main_branch_id brand) as [m |];
        cbn [BranchSelection.truthy andb].
      * destruct (negb (m =? "")%string); cbn [andb].
        -- destruct (existsb (BranchSelection.hasId m) data) eqn:Em.
           ++ destruct (existsb_find_hasId _ _ Em) as (b & -> & _ & Hin).
              exact Hin.
           ++ destruct data; cbn; [reflexivity | now left].
        -- destruct data; cbn; [reflexivity | now left].
      * destruct data; cbn; [reflexivity | now left].
  - destruct (BranchSelection.main_branch_id brand) as [m |];
      cbn [BranchSelection.truthy andb].
    + destruct (negb (m =? "")%string); cbn [andb].
      * destruct (existsb (BranchSelection.hasId m) data) eqn:Em.
        -- destruct (existsb_find_hasId _ _ Em) as (b & -> & _ & Hin).
           exact Hin.
        -- destruct data; cbn; [reflexivity | now left].
      * destruct data; cbn; [reflexivity | now left].
    + destruct data; cbn; [reflexivity | now left].
Qed.

(** X17.  However the request for the branches ends (no user or brand, an
    array, [null], or a rejection) and whatever branch was selected before,
    [fetchBranches] leaves [loading] off and a selection that is one of the
    listed branches; no branch is selected exactly when the list is empty,
    and the [localStorage] entry is not touched. *)
Theorem fetchBranches_selection_is_listed
    (typeErrorMessage : string) (user : option BranchSelection.User)
    (brand : option BranchSelection.Brand)
    (response : BranchSelection.GetAll) (st : BranchSelection.State) :
  let st' :=
    BranchSelection.fetchBranches typeErrorMessage user brand response st in
  BranchSelection.loading st' = false
  /\ (forall b, BranchSelection.selectedBranch st' = Some b ->
                In b (BranchSelection.branches st'))
  /\ (BranchSelection.selectedBranch st' = None
      <-> BranchSelection.branches st' = [])
  /\ BranchSelection.storedBranchId st' = BranchSelection.storedBranchId st.
Proof.
  cbv zeta. unfold BranchSelection.fetchBranches.
  destruct user as [u |], brand as [br |];
    try (cbn; repeat split; intros; try discriminate; reflexivity).
  destruct response as [[data |] | message];
    try (cbn; repeat split; intros; try discriminate; reflexivity).
  cbn [BranchSelection.loading BranchSelection.selectedBranch
       BranchSelection.branches BranchSelection.storedBranchId].
  pose proof (autoSelect_member (BranchSelection.selectedBranch st) br data) as H.
  destruct (BranchSelection.autoSelect (BranchSelection.selectedBranch st) br data)
    as [b |].
  - repeat split; try discriminate.
    + intros b' Hb. injection Hb as <-. exact H.
    + intros ->. destruct H.
  - repeat split; try discriminate; intros; assumption.
Qed.

Lemma fetchBranches_selection_is_listed_witness :
  In (exampleBranch "b")
     (BranchSelection.branches
        (BranchSelection.fetchBranches "TypeError"
           (Some {| BranchSelection.user_id := "u" |})
           (Some {| BranchSelection.brand_id := "x";
                    BranchSelection.main_branch_id := Some "b" |})
           (BranchSelection.Data
              (Some [exampleBranch "a"; exampleBranch "b"]))
           BranchSelection.initialState))%string.
Proof.
  apply (proj1 (proj2
    (fetchBranches_selection_is_listed "TypeError"
       (Some {| BranchSelection.user_id := "u" |})
       (Some {| BranchSelection.brand_id := "x";
                BranchSelection.main_branch_id := Some "b"%string |})
       (BranchSelection.Data
          (Some [exampleBranch "a"; exampleBranch "b"]))
       BranchSelection.initialState))%string).
  reflexivity.
Defined.

(** X18.  The order of preference of the auto-selection, on a fetched
    array: the branch carrying the id of the previous selection if that id
    is still listed; otherwise the branch carrying the brand's main branch
    id if that id is non-empty and listed; otherwise the first branch of the
    array. *)
Theorem autoSelect_priority (selected : option Branch)
    (brand : BranchSelection.Brand) (data : list Branch) :
  let previousListed :=
    exists sel, selected = Some sel /\ In (id sel) (map id data) in
  let mainListed :=
    exists m, BranchSelection.main_branch_id brand = Some m
              /\ m <> ""%string /\ In m (map id data) in
  (forall sel, selected = Some sel -> In (id sel) (map id data) ->
     exists b, BranchSelection.autoSelect selected brand data = Some b
               /\ id b = id sel /\ In b data)
  /\ (~ previousListed ->
      forall m, BranchSelection.main_branch_id brand = Some m ->
                m <> ""%string -> In m (map id data) ->
        exists b, BranchSelection.autoSelect selected brand data = Some b
                  /\ id b = m /\ In b data)
  /\ (~ previousListed -> ~ mainListed ->
      BranchSelection.autoSelect selected brand data = nth_error data 0).
Proof.
  cbv zeta.
  assert (Hhead : (if 0 <? Z.of_nat (List.length data)
                   then nth_error data 0 else None) = nth_error data 0).
  { destruct data; reflexivity. }
  split; [| split].
  - intros sel -> Hin. unfold BranchSelection.autoSelect.
    apply existsb_hasId_In in Hin. rewrite Hin.
    now apply existsb_find_hasId.
  - intros Hprev m Hm Hne Hin. unfold BranchSelection.autoSelect.
    assert (Hc : match selected with
                 | Some sel => existsb (BranchSelection.hasId (id sel)) data
                 | None => false
                 end = false).
    { destruct selected as [sel |]; [| reflexivity].
      destruct (existsb (BranchSelection.hasId (id sel)) data) eqn:E;
        [| reflexivity].
      exfalso. apply Hprev. exists sel. split; [reflexivity |].
      now apply existsb_hasId_In. }
    rewrite Hc, Hm. cbn [BranchSelection.truthy].
    apply String.eqb_neq in Hne. rewrite Hne. cbn [negb andb].
    apply existsb_hasId_In in Hin. rewrite Hin.
    now apply existsb_find_hasId.
  - intros Hprev Hmain. unfold BranchSelection.autoSelect.
    assert (Hc : match selected with
                 | Some sel => existsb (BranchSelection.hasId (id sel)) data
                 | None => false
                 end = false).
    { destruct selected as [sel |]; [| reflexivity].
      destruct (existsb (BranchSelection.hasId (id sel)) data) eqn:E;
        [| reflexivity].
      exfalso. apply Hprev. exists sel. split; [reflexivity |].
      now apply existsb_hasId_In. }
    rewrite Hc.
    destruct (BranchSelection.main_branch_id brand) as [m |] eqn:Em;
      cbn [BranchSelection.truthy andb]; [| exact Hhead].
    destruct (String.eqb_spec m "") as [-> | Hne]; cbn [negb andb];
      [exact Hhead |].
    destruct (existsb (BranchSelection.hasId m) data) eqn:E; [| exact Hhead].
    exfalso. apply Hmain. exists m. repeat split; try assumption.
    now apply existsb_hasId_In.
Qed.

Lemma autoSelect_priority_witness :
  exists b,
    BranchSelection.autoSelect (Some (exampleBranch "b"%string))
      {| BranchSelection.brand_id := "x"%string;
         BranchSelection.main_branch_id := Some "a"%string |}
      [exampleBranch "a"%string; exampleBranch "b"%string; exampleBranch "c"%string] = Some b
    /\ id b = id (exampleBranch "b"%string)
    /\ In b [exampleBranch "a"%string; exampleBranch "b"%string; exampleBranch "c"%string].
Proof.
  apply (proj1 (autoSelect_priority (Some (exampleBranch "b"%string))
    {| BranchSelection.brand_id := "x"%string;
       BranchSelection.main_branch_id := Some "a"%string |}
    [exampleBranch "a"%string; exampleBranch "b"%string; exampleBranch "c"%string])
    (exampleBranch "b"%string) eq_refl).
  cbn. right. left. reflexivity.
Defined.

(** X19.  [selectBranch] with an id that no listed branch carries changes
    nothing, neither the selection nor [localStorage]; with a listed id it
    selects the first listed branch carrying that id and stores the id.  It
    never changes the list, so a selection that was a listed branch stays
    one. *)
Theorem selectBranch_spec (branchId : string) (st : BranchSelection.State) :
  let st' := BranchSelection.selectBranch branchId st in
  (~ In branchId (map id (BranchSelection.branches st)) -> st' = st)
  /\ (In branchId (map id (BranchSelection.branches st)) ->
      exists b,
        BranchSelection.selectedBranch st' = Some b
        /\ id b = branchId
        /\ In b (BranchSelection.branches st)
        /\ find (BranchSelection.hasId branchId) (BranchSelection.branches st)
           = Some b
        /\ BranchSelection.storedBranchId st' = Some branchId)
  /\ BranchSelection.branches st' = BranchSelection.branches st
  /\ ((forall b, BranchSelection.selectedBranch st = Some b ->
                 In b (BranchSelection.branches st)) ->
      forall b, BranchSelection.selectedBranch st' = Some b ->
                In b (BranchSelection.branches st')).
Proof.
  cbv zeta. unfold BranchSelection.selectBranch.
  destruct (find (BranchSelection.hasId branchId) (BranchSelection.branches st))
    as [b |] eqn:E.
  - pose proof (find_some _ _ E) as [Hin Hid].
    apply String.eqb_eq in Hid.
    cbn [BranchSelection.selectedBranch BranchSelection.branches
         BranchSelection.storedBranchId].
    split; [| split; [| split]].
    + intros Hn. exfalso. apply Hn. apply in_map_iff. now exists b.
    + intros _. exists b. repeat split; assumption.
    + reflexivity.
    + intros _ b' Hb. injection Hb as <-. exact Hin.
  - split; [| split; [| split]].
    + reflexivity.
    + intros Hin. apply existsb_hasId_In in Hin.
      destruct (existsb_find_hasId _ _ Hin) as (b & Hb & _). congruence.
    + reflexivity.
    + intros H. exact H.
Qed.

Lemma selectBranch_spec_witness :
  BranchSelection.selectBranch "zz"%string
    {| BranchSelection.branches := [exampleBranch "a"%string; exampleBranch "b"%string];
       BranchSelection.selectedBranch := Some (exampleBranch "a"%string);
       BranchSelection.loading := false;
       BranchSelection.error := None;
       BranchSelection.storedBranchId := Some "a"%string |}
  = {| BranchSelection.branches := [exampleBranch "a"%string; exampleBranch "b"%string];
       BranchSelection.selectedBranch := Some (exampleBranch "a"%string);
       BranchSelection.loading := false;
       BranchSelection.error := None;
       BranchSelection.storedBranchId := Some "a"%string |}.
Proof.
  apply (proj1 (selectBranch_spec "zz"%string
    {| BranchSelection.branches := [exampleBranch "a"%string; exampleBranch "b"%string];
       BranchSelection.selectedBranch := Some (exampleBranch "a"%string);
       BranchSelection.loading := false;
       BranchSelection.error := None;
       BranchSelection.storedBranchId := Some "a"%string |})).
  cbn. intros [H | [H | []]]; discriminate H.
Defined.

(** * The database functions against the client functions *)

Example sql_prices_example :
  Sql.calculate_monthly_price (Some Sql.default_config) (Some 5)
  = Sql.Ok (Some 69500)
  /\ Sql.calculate_yearly_price (Some Sql.default_config) (Some 5)
     = Sql.Ok (Some 692220)
  /\ Sql.calculate_monthly_price (Some Sql.default_config) (Some 1010099)
     = Sql.NumericFieldOverflow
  /\ Sql.calculate_monthly_price None (Some 5) = Sql.Ok None
  /\ Sql.round_half_away (5 # 2) = 3
  /\ Sql.round_half_away (- 5 # 2) = -3
  /\ Sql.round_half_away (249 # 100) = 2.
Proof. repeat split. Qed.

(** ** Rounding to hundredths *)

Lemma Qfloor_plus_half (k : Z) : Qfloor (inject_Z k + (1 # 2)) = k.
Proof.
  unfold Qfloor, Qplus, inject_Z. cbn.
  symmetry. apply (Z.div_unique _ _ _ 1); lia.
Qed.

Lemma round_half_away_integer (q : Q) (k : Z) :
  (q == inject_Z k)%Q -> Sql.round_half_away q = k.
Proof.
  intros H. unfold Sql.round_half_away.
  destruct (Qle_bool 0 q) eqn:E; rewrite H.
  - apply Qfloor_plus_half.
  - rewrite <- inject_Z_opp, Qfloor_plus_half. lia.
Qed.

Lemma round_half_away_comp (q q' : Q) :
  (q == q')%Q -> Sql.round_half_away q = Sql.round_half_away q'.
Proof.
  intros H. unfold Sql.round_half_away.
  rewrite (Qleb_comp 0%Q 0%Q (Qeq_refl 0%Q) q q' H).
  destruct (Qle_bool 0 q'); now rewrite H.
Qed.

Lemma round_half_away_error (q : Q) :
  (Qabs (inject_Z (Sql.round_half_away q) - q) <= 1 # 2)%Q.
Proof.
  unfold Sql.round_half_away.
  destruct (Qle_bool 0 q) eqn:E.
  - pose proof (Qfloor_le (q + (1 # 2))) as H1.
    pose proof (Qlt_floor (q + (1 # 2))) as H2.
    rewrite inject_Z_plus in H2. change (inject_Z 1) with 1%Q in H2.
    apply Qabs_Qle_condition. split; lra.
  - pose proof (Qfloor_le (- q + (1 # 2))) as H1.
    pose proof (Qlt_floor (- q + (1 # 2))) as H2.
    rewrite inject_Z_plus in H2. change (inject_Z 1) with 1%Q in H2.
    rewrite inject_Z_opp.
    apply Qabs_Qle_condition. split; lra.
Qed.

(** A value that already has two decimals is stored as it is. *)
Lemma to_decimal_10_2_exact (q : Q) (k : Z) :
  (q * 100 == inject_Z k)%Q ->
  Sql.to_decimal_10_2 (Some q)
  = if Z.abs k <? 10 ^ 10 then Sql.Ok (Some k) else Sql.NumericFieldOverflow.
Proof.
  intros H. unfold Sql.to_decimal_10_2.
  now rewrite (round_half_away_integer _ _ H).
Qed.

Lemma numeric_of_times_100 (c : Z) : (Sql.numeric_of c * 100 == inject_Z c)%Q.
Proof. unfold Sql.numeric_of, Qeq; cbn. lia. Qed.

Lemma to_decimal_10_2_stored (c : Z) :
  Sql.to_decimal_10_2 (Some (Sql.numeric_of c))
  = if Z.abs c <? 10 ^ 10 then Sql.Ok (Some c) else Sql.NumericFieldOverflow.
Proof. apply to_decimal_10_2_exact, numeric_of_times_100. Qed.

(** The monthly price of the database, for a configuration without NULLs. *)
Lemma sql_monthly_closed_form (cur : option string) (base add : Z)
    (pct : option Z) (b : Z) :
  Sql.calculate_monthly_price
    (Some {| Sql.currency := cur; Sql.base_price_monthly := Some base;
             Sql.additional_branch_price := Some add;
             Sql.yearly_discount_percent := pct |}) (Some b)
  = if Z.abs (base + Z.max 0 (b - 1) * add) <? 10 ^ 10
    then Sql.Ok (Some (base + Z.max 0 (b - 1) * add))
    else Sql.NumericFieldOverflow.
Proof.
  unfold Sql.calculate_monthly_price.
  cbn [Sql.column Sql.base_price_monthly Sql.additional_branch_price
       Sql.numeric option_map Sql.lift2 Sql.greatest_0].
  assert (Ha : Sql.greatest_0
                 (option_map (fun b0 => b0 - 1)
                    (if b <? 1 then Some 1 else Some b))
               = Z.max 0 (b - 1)).
  { destruct (Z.ltb_spec b 1); cbn; lia. }
  rewrite Ha. apply to_decimal_10_2_exact.
  rewrite inject_Z_plus, inject_Z_mult.
  rewrite <- !numeric_of_times_100. ring.
Qed.

Lemma monthly_as_max (b : Z) :
  calculateMonthlyPrice b = 299 + Z.max 0 (b - 1) * 99.
Proof.
  destruct (Z.lt_ge_cases b 1) as [Hb | Hb].
  - rewrite calculateMonthlyPrice_below_min by assumption. lia.
  - rewrite calculateMonthlyPrice_from_one by assumption. lia.
Qed.

Lemma sql_monthly_default (b : Z) :
  Sql.calculate_monthly_price (Some Sql.default_config) (Some b)
  = if b <=? 1010098
    then Sql.Ok (Some (100 * calculateMonthlyPrice b))
    else Sql.NumericFieldOverflow.
Proof.
  unfold Sql.default_config. rewrite sql_monthly_closed_form, monthly_as_max.
  replace (29900 + Z.max 0 (b - 1) * 9900)
    with (100 * (299 + Z.max 0 (b - 1) * 99)) by ring.
  destruct (Z.leb_spec b 1010098) as [Hb | Hb];
    destruct (Z.ltb_spec (Z.abs (100 * (299 + Z.max 0 (b - 1) * 99))) (10 ^ 10))
      as [Hc | Hc]; try reflexivity; exfalso;
    change (10 ^ 10) with 10000000000 in Hc; lia.
Qed.

(** ** The monthly price *)

(** X20.  With the configuration row of the migration, the database's
    [calculate_monthly_price] returns the client's [calculateMonthlyPrice]
    (in hundredths) for every count up to 1010098, and raises a numeric
    overflow for every larger count, where the client still returns a
    price. *)
Theorem sql_monthly_agrees_with_client (b : Z) :
  Sql.calculate_monthly_price (Some Sql.default_config) (Some b)
  = (if b <=? 1010098
     then Sql.Ok (Some (100 * calculateMonthlyPrice b))
     else Sql.NumericFieldOverflow)
  /\ (Sql.numeric_of (100 * calculateMonthlyPrice b)%Z
      == inject_Z (calculateMonthlyPrice b))%Q.
Proof.
  split; [apply sql_monthly_default |].
  unfold Sql.numeric_of, Qeq, inject_Z; cbn [Qnum Qden]. lia.
Qed.

(** ** The yearly price *)

(** The yearly price of the database, for a configuration without NULLs:
    the one rounding is that of the discount amount. *)
Lemma sql_yearly_closed_form (cur : option string) (base add pct b : Z) :
  let m := base + Z.max 0 (b - 1) * add in
  let d := Sql.round_half_away (inject_Z (12 * m * pct) / 100) in
  Sql.calculate_yearly_price
    (Some {| Sql.currency := cur; Sql.base_price_monthly := Some base;
             Sql.additional_branch_price := Some add;
             Sql.yearly_discount_percent := Some pct |}) (Some b)
  = if (Z.abs m <? 10 ^ 10) && (Z.abs (12 * m) <? 10 ^ 10)
       && (Z.abs d <? 10 ^ 10) && (Z.abs (12 * m - d) <? 10 ^ 10)
    then Sql.Ok (Some (12 * m - d))
    else Sql.NumericFieldOverflow.
Proof.
  cbv zeta. unfold Sql.calculate_yearly_price.
  rewrite sql_monthly_closed_form.
  set (m := base + Z.max 0 (b - 1) * add).
  destruct (Z.abs m <? 10 ^ 10) eqn:E1; cbn [Sql.bind andb]; [| reflexivity].
  cbn [Sql.numeric option_map]. rewrite to_decimal_10_2_stored, E1.
  cbn [Sql.bind Sql.numeric option_map Sql.lift2].
  rewrite (to_decimal_10_2_exact (Sql.numeric_of m * 12) (12 * m)).
  2:{ rewrite inject_Z_mult. rewrite <- (numeric_of_times_100 m).
      change (inject_Z 12) with 12%Q. ring. }
  destruct (Z.abs (12 * m) <? 10 ^ 10) eqn:E2; cbn [Sql.bind andb];
    [| reflexivity].
  cbn [Sql.numeric option_map Sql.lift2 Sql.integer Sql.column
       Sql.yearly_discount_percent].
  assert (Hd : Sql.round_half_away
                 (Sql.numeric_of (12 * m) * inject_Z pct / 100 * 100)
               = Sql.round_half_away (inject_Z (12 * m * pct) / 100)).
  { apply round_half_away_comp.
    rewrite (inject_Z_mult (12 * m) pct).
    rewrite <- (numeric_of_times_100 (12 * m)). field. }
  unfold Sql.to_decimal_10_2 at 1. cbv zeta. rewrite Hd.
  set (d := Sql.round_half_away (inject_Z (12 * m * pct) / 100)).
  destruct (Z.abs d <? 10 ^ 10) eqn:E3; cbn [Sql.bind andb]; [| reflexivity].
  cbn [Sql.numeric option_map Sql.lift2].
  rewrite (to_decimal_10_2_exact
             (Sql.numeric_of (12 * m) - Sql.numeric_of d) (12 * m - d)).
  2:{ unfold Zminus. rewrite inject_Z_plus, inject_Z_opp.
      rewrite <- (numeric_of_times_100 (12 * m)), <- (numeric_of_times_100 d).
      ring. }
  destruct (Z.abs (12 * m - d) <? 10 ^ 10); reflexivity.
Qed.



(** X22.  For any configuration row without NULLs, whenever the database's
    [calculate_yearly_price] returns a price, that price is within half a
    hundredth of the exact value [monthly * 12 * (1 - percent / 100)]: the
    discount amount is the only quantity that is rounded. *)
Theorem sql_yearly_rounding_error (cur : option string)
    (base add pct b : Z) (y : Sql.decimal_10_2) :
  Sql.calculate_yearly_price
    (Some {| Sql.currency := cur; Sql.base_price_monthly := Some base;
             Sql.additional_branch_price := Some add;
             Sql.yearly_discount_percent := Some pct |}) (Some b)
  = Sql.Ok (Some y) ->
  (Qabs (Sql.numeric_of y
         - Sql.numeric_of (base + Z.max 0 (b - 1) * add) * 12
           * (1 - inject_Z pct / 100))
   <= 1 # 200)%Q.
Proof.
  rewrite sql_yearly_closed_form. cbv zeta.
  set (m := base + Z.max 0 (b - 1) * add).
  set (x := (inject_Z (12 * m * pct) / 100)%Q).
  destruct ((Z.abs m <? 10 ^ 10) && (Z.abs (12 * m) <? 10 ^ 10)
            && (Z.abs (Sql.round_half_away x) <? 10 ^ 10)
            && (Z.abs (12 * m - Sql.round_half_away x) <? 10 ^ 10));
    [| discriminate].
  intros H. injection H as <-.
  pose proof (round_half_away_error x) as He.
  apply Qabs_Qle_condition in He. destruct He as [He1 He2].
  assert (Hy : (Sql.numeric_of (12 * m - Sql.round_half_away x)
                - Sql.numeric_of m * 12 * (1 - inject_Z pct / 100)
                == (x - inject_Z (Sql.round_half_away x)) * (1 # 100))%Q).
  { unfold x. rewrite !inject_Z_mult. change (inject_Z 12) with 12%Q.
    assert (Hn : forall c, (Sql.numeric_of c == inject_Z c * (1 # 100))%Q).
    { intros c. unfold Sql.numeric_of, Qeq, Qmult, inject_Z; cbn [Qnum Qden].
      lia. }
    rewrite !Hn. unfold Zminus.
    rewrite inject_Z_plus, inject_Z_opp, inject_Z_mult.
    change (inject_Z 12) with 12%Q. field. }
  rewrite Hy. apply Qabs_Qle_condition. split; lra.
Qed.

Lemma sql_yearly_rounding_error_witness :
  (Qabs (Sql.numeric_of 298790
         - Sql.numeric_of (29999 + Z.max 0 (1 - 1) * 9900) * 12
           * (1 - inject_Z 17 / 100))
   <= 1 # 200)%Q.
Proof.
  apply (sql_yearly_rounding_error (Some "SAR"%string) 29999 9900 17 1 298790).
  reflexivity.
Defined.

(** ** NULLs and counts below one *)

(** X23.  In the database a count below one, and a NULL count, are priced
    as one branch, for the monthly and for the yearly price and whatever the
    configuration row holds; and when there is no active configuration row
    both functions return NULL instead of a price. *)
Theorem sql_clamp_and_nulls (config : option Sql.pricing_config)
    (branch_count : option Z) (b : Z) :
  (b < 1 ->
     Sql.calculate_monthly_price config (Some b)
       = Sql.calculate_monthly_price config (Some 1)
     /\ Sql.calculate_yearly_price config (Some b)
        = Sql.calculate_yearly_price config (Some 1))
  /\ Sql.calculate_monthly_price config None
     = Sql.calculate_monthly_price config (Some 1)
  /\ Sql.calculate_yearly_price config None
     = Sql.calculate_yearly_price config (Some 1)
  /\ Sql.calculate_monthly_price None branch_count = Sql.Ok None
  /\ Sql.calculate_yearly_price None branch_count = Sql.Ok None.
Proof.
  assert (Hm : forall c, c < 1 ->
            Sql.calculate_monthly_price config (Some c)
            = Sql.calculate_monthly_price config (Some 1)).
  { intros c Hc. unfold Sql.calculate_monthly_price.
    destruct (Z.ltb_spec c 1); [reflexivity | lia]. }
  assert (Hn : Sql.calculate_monthly_price None branch_count = Sql.Ok None).
  { unfold Sql.calculate_monthly_price. cbn. reflexivity. }
  split; [| split; [| split; [| split]]].
  - intros Hb. split; [now apply Hm |].
    unfold Sql.calculate_yearly_price. now rewrite Hm.
  - reflexivity.
  - reflexivity.
  - exact Hn.
  - unfold Sql.calculate_yearly_price. rewrite Hn. reflexivity.
Qed.

Lemma sql_clamp_and_nulls_witness :
  Sql.calculate_monthly_price (Some Sql.default_config) (Some (-7))
  = Sql.calculate_monthly_price (Some Sql.default_config) (Some 1)
  /\ Sql.calculate_yearly_price (Some Sql.default_config) (Some (-7))
     = Sql.calculate_yearly_price (Some Sql.default_config) (Some 1).
Proof.
  apply (proj1 (sql_clamp_and_nulls (Some Sql.default_config) None (-7))).
  lia.
Defined.

(** * From the branch list to the pricing card *)

(** X24.  The count that [BrandOverview] passes on is the length of the
    provider's branch list.  After any [fetchBranches] the pricing effect,
    started from [null], yields no pricing info exactly when the list is
    empty (in particular after a failed request); otherwise it yields the
    breakdown of the number of listed branches, whose monthly total is
    [299 + 99 * (n - 1)] and whose per-branch price is the finite quotient
    of that total by [n]. *)
Theorem pricing_card_after_fetchBranches
    (typeErrorMessage : string) (user : option BranchSelection.User)
    (brand : option BranchSelection.Brand)
    (response : BranchSelection.GetAll) (st : BranchSelection.State) :
  let st' :=
    BranchSelection.fetchBranches typeErrorMessage user brand response st in
  let n := BranchSelection.branchCount st' in
  0 <= n
  /\ (pricingEffect None n = None <-> BranchSelection.branches st' = [])
  /\ (forall p, pricingEffect None n = Some p ->
        pb_branchCount p = n
        /\ 1 <= n
        /\ monthly_total (monthly p) = 299 + 99 * (n - 1)
        /\ perBranch (monthly p)
           = JS.Fin (inject_Z (299 + 99 * (n - 1)) / inject_Z n)).
Proof.
  cbv zeta.
  set (st' := BranchSelection.fetchBranches typeErrorMessage user brand response st).
  unfold BranchSelection.branchCount.
  set (l := BranchSelection.branches st').
  split; [lia |]. unfold pricingEffect. split.
  - destruct l as [| x l']; cbn [List.length].
    + split; reflexivity.
    + destruct (Z.ltb_spec 0 (Z.of_nat (S (List.length l')))); [| lia].
      split; discriminate.
  - intros p.
    destruct (Z.ltb_spec 0 (Z.of_nat (List.length l))) as [Hn | Hn];
      [| discriminate].
    intros Hp. injection Hp as <-.
    cbn [getPricingBreakdown pb_branchCount monthly monthly_total perBranch].
    rewrite div_by_nonzero by lia.
    rewrite calculateMonthlyPrice_from_one by lia.
    repeat split; try lia.
    do 3 f_equal. lia.
Qed.

Lemma pricing_card_after_fetchBranches_witness :
  pb_branchCount (getPricingBreakdown 2) = 2
  /\ 1 <= 2
  /\ monthly_total (monthly (getPricingBreakdown 2)) = 299 + 99 * (2 - 1)
  /\ perBranch (monthly (getPricingBreakdown 2))
     = JS.Fin (inject_Z (299 + 99 * (2 - 1)) / inject_Z 2).
Proof.
  apply (proj2 (proj2
    (pricing_card_after_fetchBranches "TypeError"%string
       (Some {| BranchSelection.user_id := "u"%string |})
       (Some {| BranchSelection.brand_id := "x"%string;
                BranchSelection.main_branch_id := None |})
       (BranchSelection.Data
          (Some [exampleBranch "a"%string; exampleBranch "b"%string]))
       BranchSelection.initialState))).
  reflexivity.
Defined.

(** X25.  The two ways of selecting agree on listed branches: when [b] has
    a non-empty id and is the first listed branch with that id, selecting
    it by object gives the same state as selecting it by id.  Selecting by
    object with [null] or with a branch whose id is empty changes
    nothing. *)
Theorem selectBranchByObject_agrees (b : Branch) (st : BranchSelection.State) :
  (id b <> ""%string ->
   find (BranchSelection.hasId (id b)) (BranchSelection.branches st) = Some b ->
   BranchSelection.selectBranchByObject (Some b) st
   = BranchSelection.selectBranch (id b) st)
  /\ BranchSelection.selectBranchByObject None st = st
  /\ (id b = ""%string ->
      BranchSelection.selectBranchByObject (Some b) st = st).
Proof.
  unfold BranchSelection.selectBranchByObject, BranchSelection.selectBranch.
  cbn [BranchSelection.truthy].
  split; [| split].
  - intros Hne Hf. rewrite Hf.
    apply String.eqb_neq in Hne. rewrite Hne. reflexivity.
  - reflexivity.
  - intros ->. reflexivity.
Qed.

Lemma selectBranchByObject_agrees_witness :
  BranchSelection.selectBranchByObject (Some (exampleBranch "b"%string))
    {| BranchSelection.branches :=
         [exampleBranch "a"%string; exampleBranch "b"%string];
       BranchSelection.selectedBranch := None;
       BranchSelection.loading := false;
       BranchSelection.error := None;
       BranchSelection.storedBranchId := None |}
  = BranchSelection.selectBranch (id (exampleBranch "b"%string))
      {| BranchSelection.branches :=
           [exampleBranch "a"%string; exampleBranch "b"%string];
         BranchSelection.selectedBranch := None;
         BranchSelection.loading := false;
         BranchSelection.error := None;
         BranchSelection.storedBranchId := None |}.
Proof.
  apply (proj1 (selectBranchByObject_agrees (exampleBranch "b"%string)
    {| BranchSelection.branches :=
         [exampleBranch "a"%string; exampleBranch "b"%string];
       BranchSelection.selectedBranch := None;
       BranchSelection.loading := false;
       BranchSelection.error := None;
       BranchSelection.storedBranchId := None |})).
  - discriminate.
  - reflexivity.
Defined.
